(** * buidler-etherscan: the [verify] task

    A shallow embedding of [packages/buidler-etherscan/src/index.ts].

    [verify] is an orchestrating function: it validates its configuration,
    asks a node for the deployed bytecode, infers the compiler version range,
    looks the bytecode up among the compiled contracts and builds the
    verification request.  Every step but the control flow lives in a
    collaborator module ([./config], [./solc/SolcVersions], [./network/prober],
    [./solc/bytecode], [./ABITypes], [./etherscan/...], ethers' [Interface]).

    The embedding therefore has three layers:
    - the data that crosses the interfaces (records and inductive types);
    - a small trace-and-exception monad [Run]: a computation yields the list
      of collaborator calls it performed, in order, and either a value or the
      thrown error;
    - [verify] itself, written statement by statement over a record
      [Collaborators] holding the behaviour of the imported functions. *)

From Stdlib Require Import List NArith ZArith Ascii String Sorted.
From Stdlib.Strings Require Import Byte.
From stdpp Require Import base tactics option list strings gmap pretty.
Import ListNotations.

Set Warnings "-register-all".

Open Scope string_scope.
Open Scope list_scope.

(** ** Strings *)

(** The line feed of the multi-line template literals. *)
Definition LF : string := String (ascii_of_nat 10) EmptyString.

(** A string is a sequence of code units below 256.  Among those, the ones
    [trim] strips: ECMAScript's [WhiteSpace] (tab, vertical tab, form feed,
    space, no-break space) and [LineTerminator] (line feed, carriage
    return). *)
Definition isWhiteSpace (a : ascii) : bool :=
  let n := N_of_ascii a in
  ((9 <=? n) && (n <=? 13))%N || (n =? 32)%N || (n =? 160)%N.

Fixpoint trimStart (s : string) : string :=
  match s with
  | EmptyString => EmptyString
  | String a s' => if isWhiteSpace a then trimStart s' else s
  end.

Definition trimEnd (s : string) : string :=
  String.rev (trimStart (String.rev s)).

(** [String.prototype.trim]. *)
Definition trim (s : string) : string := trimEnd (trimStart s).

(** ** Data crossing the interfaces *)

Abbreviation Bytecode := (list byte) (only parsing).
Abbreviation Address := (list byte) (only parsing).

(** Modelled from the spec: [SolcVersion] of [./solc/SolcVersions] (section 3,
    "major, minor, patch", compared numerically). *)
Record SolcVersion := mkSolcVersion {
  major : N;
  minor : N;
  patch : N
}.

(** Modelled from the spec: the [InferralType] tag of a version range
    (section 3); the source names [InferralType.EXACT]. *)
Inductive InferralType := EXACT | METADATA | BYTECODE_ERA.

(** Modelled from the spec: [VersionRange] (section 3), an inclusive lower
    bound, an optional exclusive upper bound and the inferral tag. *)
Record VersionRange := mkVersionRange {
  lower : SolcVersion;
  upper : option SolcVersion;
  inferralType : InferralType
}.

#[global] Instance InferralType_eq_dec : EqDecision InferralType.
Proof. solve_decision. Defined.
#[global] Instance byte_eq_dec : EqDecision byte := Byte.byte_eq_dec.

(** Values a JavaScript module can export, as far as [verify] looks at them
    ([Array.isArray]) and hands them to the ABI encoder. *)
Inductive JsValue :=
| JsUndefined
| JsBoolean (b : bool)
| JsNumber (n : Z)
| JsString (s : string)
| JsArray (items : list JsValue)
| JsObject (fields : list (string * JsValue)).

Definition isArray (v : JsValue) : bool :=
  match v with JsArray _ => true | _ => false end.

Record LinkReference := mkLinkReference {
  libraryName : string;
  linkOffsets : list nat
}.

Record ImmutableReference := mkImmutableReference {
  immutableName : string;
  immutableOffsets : list nat;
  immutableLength : nat
}.

(** One contract of [compilerOutput.contracts]. *)
Record CompiledArtifact := mkCompiledArtifact {
  sourceName : string;
  artifactName : string;
  abi : string;
  creationBytecode : Bytecode;
  runtimeBytecode : Bytecode;
  linkReferences : list LinkReference;
  immutableReferences : list ImmutableReference
}.

(** What [lookupMatchingBytecode] returns on a match. *)
Record ContractInformation := mkContractInformation {
  contract : CompiledArtifact;
  contractName : string;
  contractFilename : string;
  libraryLinks : gmap string Address
}.

Record CompilerSettings := mkCompilerSettings {
  libraries : gmap string Address;
  otherSettings : string
}.

Record CompilerInput := mkCompilerInput {
  language : string;
  sources : list (string * string);
  settings : CompilerSettings
}.

Record CompilerOutput := mkCompilerOutput {
  contracts : list CompiledArtifact
}.

Record CompileResult := mkCompileResult {
  compilerInput : CompilerInput;
  compilerOutput : CompilerOutput
}.

(** [compilerInput.settings.libraries = links]: the assignment of line 193. *)
Definition setLibraries (ci : CompilerInput) (links : gmap string Address)
  : CompilerInput :=
  {| language := language ci;
     sources := sources ci;
     settings := {| libraries := links;
                    otherSettings := otherSettings (settings ci) |} |}.

Record EtherscanConfig := mkEtherscanConfig {
  apiKey : option string
}.

Record SolcConfig := mkSolcConfig {
  version : string
}.

Record ResolvedBuidlerConfig := mkConfig {
  etherscan : EtherscanConfig;
  solc : SolcConfig
}.

(** Handles: the model only passes them on. *)
Record EthereumProvider := mkProvider { providerId : string }.
Record RunTaskFunction := mkRunner { runnerId : string }.
Record URL := mkURL { href : string }.

Record Network := mkNetwork {
  name : string;
  provider : EthereumProvider
}.

Record BuidlerRuntimeEnvironment := mkEnvironment {
  config : ResolvedBuidlerConfig;
  network : Network;
  run : RunTaskFunction
}.

(** [interface VerificationArgs]. *)
Record VerificationArgs := mkVerificationArgs {
  address : string;
  constructorArguments : list string;
  constructorArgs : option string
}.

(** The object literal handed to [toRequest]. *)
Record RequestParams := mkRequestParams {
  req_apiKey : option string;
  req_contractAddress : string;
  req_sourceCode : string;
  req_contractName : string;
  req_compilerVersion : string;
  req_constructorArguments : string
}.

Record EtherscanVerifyRequest := mkRequest { requestBody : string }.

(** ** Errors *)

(** The exceptions [verify] distinguishes ([instanceof NetworkProberError],
    [isABIArgumentLengthError], [isABIArgumentTypeError]), the one it
    constructs ([BuidlerPluginError], with its optional parent), the two the
    spec names for the matcher, and any other thrown value. *)
Inductive Error :=
| BuidlerPluginError (plugin : string) (message : string) (parent : option Error)
| NetworkProberError (message : string)
| ABIArgumentLengthError (countTypes countValues : N)
| ABIArgumentTypeError (value argument reason : string)
| AmbiguousArtifactMatch (names : list string)
| LibraryAddressInconsistency (library : string)
| OtherError (message : string).

Inductive Outcome (A : Type) :=
| Returned (a : A)
| Thrown (e : Error).
Arguments Returned {A} a.
Arguments Thrown {A} e.

Definition isThrown {A} (o : Outcome A) : bool :=
  match o with Thrown _ => true | Returned _ => false end.

(** ** Collaborator calls *)

(** One constructor per imported function that [verify] calls, carrying the
    arguments and the result of the call.  [EvVerifyContract] and
    [EvGetVerificationStatus] stand for the two functions of
    [./etherscan/EtherscanService] that [verify] imports. *)
Inductive Event :=
| EvGetDefaultEtherscanConfig (cfg : ResolvedBuidlerConfig) (r : EtherscanConfig)
| EvIsAddress (a : string) (r : bool)
| EvGetVersionNumber (v : string) (r : SolcVersion)
| EvImport (path : string) (r : Outcome JsValue)
| EvGetEtherscanEndpoint (p : EthereumProvider) (r : Outcome URL)
| EvRetrieveContractBytecode (a : string) (p : EthereumProvider)
                             (r : Outcome (option Bytecode))
| EvInferSolcVersion (b : Bytecode) (r : Outcome VersionRange)
| EvIsIncluded (range : VersionRange) (v : SolcVersion) (r : bool)
| EvCompile (f : RunTaskFunction) (r : Outcome CompileResult)
| EvLookupMatchingBytecode (cs : list CompiledArtifact) (b : Bytecode)
                           (t : InferralType)
                           (r : Outcome (option ContractInformation))
| EvNewInterface (abi : string) (r : Outcome unit)
| EvEncodeDeploy (abi : string) (args : JsValue) (r : Outcome string)
| EvStringify (ci : CompilerInput) (r : string)
| EvGetLongVersion (v : SolcVersion) (r : Outcome string)
| EvToRequest (params : RequestParams) (r : EtherscanVerifyRequest)
| EvVerifyContract (endpoint : URL) (request : EtherscanVerifyRequest)
| EvGetVerificationStatus (endpoint : URL) (guid : string)
| EvConsoleLog (line : string).

(** ** The monad of runs *)

Record Run (A : Type) := mkRun {
  trace : list Event;
  outcome : Outcome A
}.
Arguments mkRun {A} trace outcome.
Arguments trace {A} r.
Arguments outcome {A} r.

#[global] Instance Run_ret : MRet Run := fun A a => mkRun [] (Returned a).

(** Sequencing: the continuation runs only after a normal return, and its
    calls come after those of [m]. *)
#[global] Instance Run_bind : MBind Run := fun A B f m =>
  match m with
  | mkRun t (Returned a) =>
      match f a with
      | mkRun t' o => mkRun (t ++ t') o
      end
  | mkRun t (Thrown e) => mkRun t (Thrown e)
  end.

Definition throw {A} (e : Error) : Run A := mkRun [] (Thrown e).

(** [try { m } catch (error) { h error }]. *)
Definition tryCatch {A} (m : Run A) (h : Error -> Run A) : Run A :=
  match m with
  | mkRun t (Returned a) => m
  | mkRun t (Thrown e) =>
      match h e with
      | mkRun t' o => mkRun (t ++ t') o
      end
  end.

(** A synchronous call that returns [r]. *)
Definition call {A} (ev : A -> Event) (r : A) : Run A :=
  mkRun [ev r] (Returned r).

(** An awaited call (or a call inside a [try]) whose promise settles as [r]. *)
Definition await {A} (ev : Outcome A -> Event) (r : Outcome A) : Run A :=
  mkRun [ev r] r.

(** A call without a result the function looks at. *)
Definition perform (ev : Event) : Run unit := mkRun [ev] (Returned tt).

(** [if (b) { throw e; }] *)
Definition throwIf (b : bool) (e : Error) : Run unit :=
  if b then throw e else mret tt.

(** ** The imported functions *)

(** The behaviour of everything [verify] imports.  Awaited functions, the
    [Interface] constructor of ethers (line 169) and its ABI encoder (called
    inside a [try]) may throw; the other synchronous helpers return.
    [pluginName] is the constant of [./pluginContext]; [isIncluded] and
    [rangeToString] are the methods of the [VersionRange] object that
    [inferSolcVersion] resolves to ([toString] is what the template literal
    applies to it); [importModule path] is what [await import(path)] settles
    as. *)
Record Collaborators := mkCollaborators {
  pluginName : string;
  getDefaultEtherscanConfig : ResolvedBuidlerConfig -> EtherscanConfig;
  isAddress : string -> bool;
  getVersionNumber : string -> SolcVersion;
  getLongVersion : SolcVersion -> Outcome string;
  inferSolcVersion : Bytecode -> Outcome VersionRange;
  isIncluded : VersionRange -> SolcVersion -> bool;
  rangeToString : VersionRange -> string;
  importModule : string -> Outcome JsValue;
  getEtherscanEndpoint : EthereumProvider -> Outcome URL;
  retrieveContractBytecode :
    string -> EthereumProvider -> Outcome (option Bytecode);
  compile : RunTaskFunction -> Outcome CompileResult;
  lookupMatchingBytecode :
    list CompiledArtifact -> Bytecode -> InferralType ->
    Outcome (option ContractInformation);
  newInterface : string -> Outcome unit;
  encodeDeploy : string -> JsValue -> Outcome string;
  stringify : CompilerInput -> string;
  toRequest : RequestParams -> EtherscanVerifyRequest
}.

(** ** The messages of [verify] *)

Definition apiKeyMessage : string :=
  "Please provide an Etherscan API token via buidler config. " +:+
  "E.g.: { [...], etherscan: { apiKey: 'an API key' }, [...] }".

Definition unsupportedNetworkMessage : string :=
  "Please select a network supported by Etherscan.".

Definition invalidAddressMessage (address : string) : string :=
  address +:+ " is an invalid address.".

Definition unsupportedVersionMessage : string :=
  "Etherscan only supports compiler versions 0.4.11 and higher." +:+ LF +:+
  "See https://etherscan.io/solcversions for more information.".

Definition notAListMessage : string :=
  "The module doesn't export a list. The module should look like this:"
  +:+ LF +:+ "module.exports = [ arg1, arg2, ... ];".

Definition importFailedMessage : string :=
  "Importing the module for the constructor arguments list failed.".

Definition proberMessage (message networkName : string) : string :=
  message +:+ " The selected network is " +:+ networkName +:+ ".".

Definition noBytecodeMessage (address networkName : string) : string :=
  "The address " +:+ address +:+
  " has no bytecode. Is the contract deployed to this network?" +:+ LF +:+
  "The selected network is " +:+ networkName +:+ ".".

(** Lines 129-134. *)
Definition detailedContext (c : Collaborators) (solcVersionRange : VersionRange)
  : string :=
  match inferralType solcVersionRange with
  | EXACT =>
      "The expected version is " +:+ rangeToString c solcVersionRange +:+ "."
  | _ =>
      "The expected version range is " +:+ rangeToString c solcVersionRange
      +:+ "."
  end.

(** Lines 135-142. *)
Definition versionMismatchMessage
  (configuredVersion context networkName : string) : string :=
  "The bytecode retrieved could not have been generated by the selected compiler."
  +:+ LF +:+
  "The selected compiler version is v" +:+ configuredVersion +:+ "." +:+ LF +:+
  context +:+ LF +:+
  "The selected network is " +:+ networkName +:+ "." +:+ LF +:+
  "Possible causes:" +:+ LF +:+
  "  - Wrong compiler version in buidler config" +:+ LF +:+
  "  - Wrong address for contract" +:+ LF +:+
  "  - Wrong network selected or faulty buidler network config".

(** Lines 157-161. *)
Definition notFoundMessage (networkName : string) : string :=
  "The contract was not found among the ones present in this project."
  +:+ LF +:+
  "The selected network is " +:+ networkName +:+ "." +:+ LF +:+
  "Possible causes:" +:+ LF +:+
  "  - Wrong address for contract" +:+ LF +:+
  "  - Wrong network selected or faulty buidler network config".

(** Lines 179-180. *)
Definition argumentLengthMessage
  (contractFilename contractName : string) (types values : N) : string :=
  "The constructor for " +:+ contractFilename +:+ ":" +:+ contractName +:+
  " has " +:+ pretty types +:+ " parameters" +:+ LF +:+
  " but " +:+ pretty values +:+ " arguments were provided instead." +:+ LF.

(** Lines 184-185. *)
Definition argumentTypeMessage (value argument reason : string) : string :=
  "Value " +:+ value +:+ " cannot be encoded for the parameter " +:+ argument
  +:+ "." +:+ LF +:+ "Encoder error reason: " +:+ reason +:+ LF.

Definition submittedMessage (address : string) : string :=
  "Successfully submitted contract at " +:+ address +:+
  " for verification on etherscan. Waiting for verification result...".

Definition verifiedMessage : string :=
  "Successfully verified contract on etherscan".

(** ** [verify] *)

(** Lines 59-64: the configured compiler is older than 0.4.11. *)
Definition unsupportedByEtherscan (solcVersionConfig : SolcVersion) : bool :=
  ((major solcVersionConfig =? 0)%N &&
   (minor solcVersionConfig =? 4)%N &&
   (patch solcVersionConfig <? 11)%N)
  || ((major solcVersionConfig =? 0)%N && (minor solcVersionConfig <? 4)%N).

(** Line 25. *)
Definition apiKeyMissing (etherscan : EtherscanConfig) : bool :=
  match apiKey etherscan with
  | None => true
  | Some k => String.eqb (trim k) ""
  end.

(** The action of the [verify] task, lines 14-223, statement by statement.
    The dynamic imports of the plugin's own modules are taken to succeed.
    The two calls that are commented out in the source (lines 213 and 220)
    are absent here as they are absent from the program. *)
Definition verify (c : Collaborators) (args : VerificationArgs)
  (env : BuidlerRuntimeEnvironment) : Run unit :=
  let address := address args in
  let constructorArgsList := constructorArguments args in
  let constructorArgsModule := constructorArgs args in
  let config := config env in
  let network := network env in
  let run := run env in
  etherscan ← call (EvGetDefaultEtherscanConfig config)
                   (getDefaultEtherscanConfig c config);
  throwIf (apiKeyMissing etherscan)
    (BuidlerPluginError (pluginName c) apiKeyMessage None);;
  throwIf (String.eqb (name network) "buidlerevm")
    (BuidlerPluginError (pluginName c) unsupportedNetworkMessage None);;
  valid ← call (EvIsAddress address) (isAddress c address);
  throwIf (negb valid)
    (BuidlerPluginError (pluginName c) (invalidAddressMessage address) None);;
  solcVersionConfig ← call (EvGetVersionNumber (version (solc config)))
                           (getVersionNumber c (version (solc config)));
  throwIf (unsupportedByEtherscan solcVersionConfig)
    (BuidlerPluginError (pluginName c) unsupportedVersionMessage None);;
  constructorArguments ←
    match constructorArgsModule with
    | Some module =>
        tryCatch
          (exported ← await (EvImport module) (importModule c module);
           throwIf (negb (isArray exported))
             (BuidlerPluginError (pluginName c) notAListMessage None);;
           mret exported)
          (fun error =>
             throw (BuidlerPluginError (pluginName c) importFailedMessage
                      (Some error)))
    | None => mret (JsArray (JsString <$> constructorArgsList))
    end;
  etherscanAPIEndpoint ←
    tryCatch
      (await (EvGetEtherscanEndpoint (provider network))
             (getEtherscanEndpoint c (provider network)))
      (fun error =>
         match error with
         | NetworkProberError message =>
             throw (BuidlerPluginError (pluginName c)
                      (proberMessage message (name network)) (Some error))
         | _ => throw error
         end);
  deployedContractBytecode ←
    await (EvRetrieveContractBytecode address (provider network))
          (retrieveContractBytecode c address (provider network));
  match deployedContractBytecode with
  | None =>
      throw (BuidlerPluginError (pluginName c)
               (noBytecodeMessage address (name network)) None)
  | Some deployedContractBytecode =>
      solcVersionRange ← await (EvInferSolcVersion deployedContractBytecode)
                               (inferSolcVersion c deployedContractBytecode);
      included ← call (EvIsIncluded solcVersionRange solcVersionConfig)
                      (isIncluded c solcVersionRange solcVersionConfig);
      throwIf (negb included)
        (BuidlerPluginError (pluginName c)
           (versionMismatchMessage (version (solc config))
              (detailedContext c solcVersionRange) (name network)) None);;
      compiled ← await (EvCompile run) (compile c run);
      contractInformation ←
        await (EvLookupMatchingBytecode (contracts (compilerOutput compiled))
                 deployedContractBytecode (inferralType solcVersionRange))
              (lookupMatchingBytecode c (contracts (compilerOutput compiled))
                 deployedContractBytecode (inferralType solcVersionRange));
      match contractInformation with
      | None =>
          throw (BuidlerPluginError (pluginName c)
                   (notFoundMessage (name network)) None)
      | Some contractInformation =>
          await (EvNewInterface (abi (contract contractInformation)))
                (newInterface c (abi (contract contractInformation)));;
          deployArgumentsEncoded ←
            tryCatch
              (await (EvEncodeDeploy (abi (contract contractInformation))
                        constructorArguments)
                     (encodeDeploy c (abi (contract contractInformation))
                        constructorArguments))
              (fun error =>
                 match error with
                 | ABIArgumentLengthError types values =>
                     throw (BuidlerPluginError (pluginName c)
                              (argumentLengthMessage
                                 (contractFilename contractInformation)
                                 (contractName contractInformation)
                                 types values) None)
                 | ABIArgumentTypeError value argument reason =>
                     throw (BuidlerPluginError (pluginName c)
                              (argumentTypeMessage value argument reason) None)
                 | _ => throw error
                 end);
          let compilerInput :=
            setLibraries (compilerInput compiled)
                         (libraryLinks contractInformation) in
          compilerInputJSON ← call (EvStringify compilerInput)
                                   (stringify c compilerInput);
          solcFullVersion ← await (EvGetLongVersion solcVersionConfig)
                                  (getLongVersion c solcVersionConfig);
          let params :=
            {| req_apiKey := apiKey etherscan;
               req_contractAddress := address;
               req_sourceCode := compilerInputJSON;
               req_contractName := contractName contractInformation;
               req_compilerVersion := solcFullVersion;
               req_constructorArguments := deployArgumentsEncoded |} in
          request ← call (EvToRequest params) (toRequest c params);
          perform (EvConsoleLog (submittedMessage address));;
          perform (EvConsoleLog verifiedMessage)
      end
  end.

(** ** What a run did *)

Definition isRetrieval (ev : Event) : bool :=
  match ev with EvRetrieveContractBytecode _ _ _ => true | _ => false end.
Definition isInference (ev : Event) : bool :=
  match ev with EvInferSolcVersion _ _ => true | _ => false end.
Definition isRangeCheck (ev : Event) : bool :=
  match ev with EvIsIncluded _ _ _ => true | _ => false end.
Definition isCompilation (ev : Event) : bool :=
  match ev with EvCompile _ _ => true | _ => false end.
Definition isMatching (ev : Event) : bool :=
  match ev with EvLookupMatchingBytecode _ _ _ _ => true | _ => false end.
Definition isSubmission (ev : Event) : bool :=
  match ev with EvVerifyContract _ _ => true | _ => false end.
Definition isStatusPolling (ev : Event) : bool :=
  match ev with EvGetVerificationStatus _ _ => true | _ => false end.

(** Some call satisfying [p] was made during the run. *)
Definition attempted {A} (p : Event -> bool) (r : Run A) : bool :=
  existsb p (trace r).

(** The message contains [part]. *)
Definition mentions (message part : string) : Prop :=
  exists before after, message = before +:+ part +:+ after.

(** The run [m] satisfies [Q], a property of its trace and outcome. *)
Definition wp {A} (m : Run A) (Q : list Event -> Outcome A -> Prop) : Prop :=
  Q (trace m) (outcome m).

(** ** The version model of [./solc/SolcVersions] *)

Module SolcVersions.

(** Modelled from the spec: the order of [SolcVersion] (section 4.5),
    "strictly numeric on (major, minor, patch)".  The module is not part of
    the sources at hand. *)
Definition ltVersion (a b : SolcVersion) : bool :=
  (major a <? major b)%N
  || ((major a =? major b)%N &&
      ((minor a <? minor b)%N
       || ((minor a =? minor b)%N && (patch a <? patch b)%N))).

(** Modelled from the spec: equality of [SolcVersion] (section 3), "equal
    iff all three numeric components match". *)
Definition eqVersion (a b : SolcVersion) : bool :=
  (major a =? major b)%N && (minor a =? minor b)%N && (patch a =? patch b)%N.

(** Modelled from the spec: [VersionRange.isIncluded] (section 4.2), "true
    iff candidateVersion falls within [lower, upper) or, for Exact, equals
    the single version exactly". *)
Definition isIncluded (r : VersionRange) (v : SolcVersion) : bool :=
  match inferralType r with
  | EXACT => eqVersion v (lower r)
  | _ =>
      negb (ltVersion v (lower r))
      && match upper r with
         | Some u => ltVersion v u
         | None => true
         end
  end.

(** An [Exact] range: the single version [v]. *)
Definition exact (v : SolcVersion) : VersionRange :=
  {| lower := v; upper := None; inferralType := EXACT |}.

End SolcVersions.

(** ** The matcher of [./solc/bytecode] *)

Module Matcher.
Section WithParser.

(** Modelled from the spec: the metadata parser (section 4.1) as far as the
    normalizer needs it, the length of the trailing metadata block of a
    bytecode, if it has one.  The module [./solc/bytecode] and the parser are
    not part of the sources at hand. *)
Variable metadataLength : Bytecode -> option nat.

(** Zero-fill [len] bytes from [offset]; bytes past the end are left out. *)
Fixpoint zeroSpan (offset len : nat) (b : Bytecode) : Bytecode :=
  match len with
  | O => b
  | S n => <[offset := x00]> (zeroSpan (S offset) n b)
  end.

Definition zeroSpans (spans : list (nat * nat)) (b : Bytecode) : Bytecode :=
  foldr (fun span acc => zeroSpan (fst span) (snd span) acc) b spans.

(** Modelled from the spec: a link reference covers "each offset + 20
    bytes" (section 3). *)
Definition linkSpans (a : CompiledArtifact) : list (nat * nat) :=
  flat_map (fun r => (fun o => (o, 20)) <$> linkOffsets r) (linkReferences a).

Definition immutableSpans (a : CompiledArtifact) : list (nat * nat) :=
  flat_map (fun r => (fun o => (o, immutableLength r)) <$> immutableOffsets r)
           (immutableReferences a).

(** Modelled from the spec: range-based matching ignores the metadata
    region, exact matching keeps it (section 4.3). *)
Definition metadataSpans (t : InferralType) (b : Bytecode)
  : list (nat * nat) :=
  match t with
  | EXACT => []
  | _ =>
      match metadataLength b with
      | Some n => [(length b - n, n)]
      | None => []
      end
  end.

(** Modelled from the spec: the normalizer (section 4.3), "every
    placeholder region (link and immutable) is zero-filled", with the spans
    that were zeroed. *)
Definition normalize (t : InferralType) (a : CompiledArtifact) (b : Bytecode)
  : Bytecode * list (nat * nat) :=
  let spans := linkSpans a ++ immutableSpans a ++ metadataSpans t b in
  (zeroSpans spans b, spans).

(** The candidate's normalized bytecode equals the normalized deployed
    bytecode. *)
Definition normalizedEqual (t : InferralType) (deployed : Bytecode)
  (a : CompiledArtifact) : Prop :=
  (normalize t a (runtimeBytecode a)).1 = (normalize t a deployed).1.

(** Modelled from the spec: steps 1 and 2 of the matcher (section 4.4): the
    candidate's runtime bytecode and the deployed bytecode, both normalized
    with the candidate's tables, have the same length and the same bytes. *)
Definition matchesDeployed (t : InferralType) (deployed : Bytecode)
  (a : CompiledArtifact) : bool :=
  (length (runtimeBytecode a) =? length deployed)%nat
  && bool_decide ((normalize t a (runtimeBytecode a)).1
                  = (normalize t a deployed).1).

Definition readAddress (deployed : Bytecode) (offset : nat) : Address :=
  take 20 (drop offset deployed).

(** Modelled from the spec: "all offsets for one library must agree on the
    same 20-byte value; disagreement is a data-integrity error". *)
Definition resolveLink (deployed : Bytecode) (r : LinkReference)
  : Outcome (option Address) :=
  match readAddress deployed <$> linkOffsets r with
  | [] => Returned None
  | a :: rest =>
      if forallb (fun a' => bool_decide (a' = a)) rest
      then Returned (Some a)
      else Thrown (LibraryAddressInconsistency (libraryName r))
  end.

Fixpoint resolveLinks (deployed : Bytecode) (refs : list LinkReference)
  : Outcome (gmap string Address) :=
  match refs with
  | [] => Returned ∅
  | r :: refs' =>
      match resolveLink deployed r with
      | Thrown e => Thrown e
      | Returned found =>
          match resolveLinks deployed refs' with
          | Thrown e => Thrown e
          | Returned links =>
              Returned (match found with
                        | Some a => <[libraryName r := a]> links
                        | None => links
                        end)
          end
      end
  end.

(** Modelled from the spec: the candidate matcher (section 4.4, steps 3
    and 4).  No match is "no result"; one match resolves the library
    addresses from the deployed bytes; several matches are an error naming
    all of them. *)
Definition lookupMatchingBytecode (cs : list CompiledArtifact)
  (deployed : Bytecode) (t : InferralType)
  : Outcome (option ContractInformation) :=
  match List.filter (matchesDeployed t deployed) cs with
  | [] => Returned None
  | [a] =>
      match resolveLinks deployed (linkReferences a) with
      | Thrown e => Thrown e
      | Returned links =>
          Returned (Some {| contract := a;
                            contractName := artifactName a;
                            contractFilename := sourceName a;
                            libraryLinks := links |})
      end
  | matching => Thrown (AmbiguousArtifactMatch (artifactName <$> matching))
  end.

End WithParser.
End Matcher.

(** ** A concrete project *)

Module Example.

Definition runtime : Bytecode := [x60; x80; x60; x40; x52; x00].

Definition token : CompiledArtifact :=
  {| sourceName := "contracts/Token.sol";
     artifactName := "Token";
     abi := "[]";
     creationBytecode := [x60; x80] ++ runtime;
     runtimeBytecode := runtime;
     linkReferences := [];
     immutableReferences := [] |}.

(** The same contract defined a second time, in another file. *)
Definition tokenCopy : CompiledArtifact :=
  {| sourceName := "contracts/Copy.sol";
     artifactName := "TokenCopy";
     abi := "[]";
     creationBytecode := [x60; x80] ++ runtime;
     runtimeBytecode := runtime;
     linkReferences := [];
     immutableReferences := [] |}.

Definition other : CompiledArtifact :=
  {| sourceName := "contracts/Other.sol";
     artifactName := "Other";
     abi := "[]";
     creationBytecode := [x60; x80; x00];
     runtimeBytecode := [x00];
     linkReferences := [];
     immutableReferences := [] |}.

Definition input : CompilerInput :=
  {| language := "Solidity";
     sources := [("contracts/Token.sol", "contract Token {}")];
     settings := {| libraries := ∅; otherSettings := "{}" |} |}.

Definition v_0_5_0 : SolcVersion := mkSolcVersion 0 5 0.

Definition digitValue (a : ascii) : option N :=
  let n := N_of_ascii a in
  if ((48 <=? n) && (n <=? 57))%N then Some (n - 48)%N else None.

(** The decimal number at the head of [s], and what follows its
    separator. *)
Fixpoint readNumber (s : string) (acc : N) : N * string :=
  match s with
  | EmptyString => (acc, EmptyString)
  | String a s' =>
      match digitValue a with
      | Some d => readNumber s' (10 * acc + d)%N
      | None => (acc, s')
      end
  end.

(** A reading of "major.minor.patch" for the examples. *)
Definition parseVersion (s : string) : SolcVersion :=
  let (ma, s1) := readNumber s 0 in
  let (mi, s2) := readNumber s1 0 in
  let (pa, _) := readNumber s2 0 in
  mkSolcVersion ma mi pa.

(** Collaborators of a project that compiles to [cs], deployed on a chain
    where every address holds [code]; the deployed bytecode yields the range
    [range].  The constructor-arguments module, when one is asked for,
    settles as [exported]. *)
Definition collaborators (range : VersionRange)
  (cs : list CompiledArtifact) (code : option Bytecode)
  (exported : Outcome JsValue) : Collaborators :=
  {| pluginName := "@nomiclabs/buidler-etherscan";
     getDefaultEtherscanConfig := etherscan;
     isAddress := fun a => (String.length a =? 42)%nat;
     getVersionNumber := parseVersion;
     getLongVersion := fun _ => Returned "v0.5.0+commit.1d4f565a";
     inferSolcVersion := fun _ => Returned range;
     isIncluded := SolcVersions.isIncluded;
     rangeToString := fun r =>
       pretty (major (lower r)) +:+ "." +:+ pretty (minor (lower r))
       +:+ "." +:+ pretty (patch (lower r));
     importModule := fun _ => exported;
     getEtherscanEndpoint := fun _ =>
       Returned (mkURL "https://api-ropsten.etherscan.io/api");
     retrieveContractBytecode := fun _ _ => Returned code;
     compile := fun _ =>
       Returned {| compilerInput := input;
                   compilerOutput := {| contracts := cs |} |};
     lookupMatchingBytecode :=
       Matcher.lookupMatchingBytecode (fun _ => None);
     newInterface := fun _ => Returned tt;
     encodeDeploy := fun _ _ => Returned "";
     stringify := fun ci => language ci;
     toRequest := fun p => mkRequest (req_sourceCode p) |}.

Definition environment (key : option string) (solcVersion : string)
  : BuidlerRuntimeEnvironment :=
  {| config := {| etherscan := {| apiKey := key |};
                  solc := {| version := solcVersion |} |};
     network := {| name := "ropsten"; provider := mkProvider "ropsten" |};
     run := mkRunner "run" |}.

Definition deployedAt : string :=
  "0x5FbDB2315678afecb367f032d93F642f64180aa3".

Definition arguments (module : option string) : VerificationArgs :=
  {| address := deployedAt;
     constructorArguments := ["1000"];
     constructorArgs := module |}.

End Example.


(** ** Further notions for the properties below *)

(** Every code unit of [s] is white space. *)
Fixpoint isBlank (s : string) : bool :=
  match s with
  | EmptyString => true
  | String a s' => isWhiteSpace a && isBlank s'
  end.

(** The place of a call in the text of [verify]: the imported functions in
    the order of their call sites, the two commented-out calls of
    [./etherscan/EtherscanService] included (lines 213 and 220), and the two
    [console.log] lines of 216 and 222. *)
Definition stage (ev : Event) : nat :=
  match ev with
  | EvGetDefaultEtherscanConfig _ _ => 0
  | EvIsAddress _ _ => 1
  | EvGetVersionNumber _ _ => 2
  | EvImport _ _ => 3
  | EvGetEtherscanEndpoint _ _ => 4
  | EvRetrieveContractBytecode _ _ _ => 5
  | EvInferSolcVersion _ _ => 6
  | EvIsIncluded _ _ _ => 7
  | EvCompile _ _ => 8
  | EvLookupMatchingBytecode _ _ _ _ => 9
  | EvNewInterface _ _ => 10
  | EvEncodeDeploy _ _ _ => 11
  | EvStringify _ _ => 12
  | EvGetLongVersion _ _ => 13
  | EvToRequest _ _ => 14
  | EvVerifyContract _ _ => 15
  | EvGetVerificationStatus _ _ => 17
  | EvConsoleLog line => if String.eqb line verifiedMessage then 18 else 16
  end.

Definition isRequestStep (ev : Event) : bool :=
  match ev with
  | EvStringify _ _ | EvGetLongVersion _ _ | EvToRequest _ _ => true
  | _ => false
  end.

Definition isEncoding (ev : Event) : bool :=
  match ev with EvEncodeDeploy _ _ _ => true | _ => false end.

(** The [default] property of a module namespace object: where
    [await import(path)] puts the [module.exports] of a CommonJS module.  The
    namespace is an object of its own, not the exported value. *)
Definition namespaceDefault (ns : JsValue) : option JsValue :=
  match ns with
  | JsObject fields =>
      snd <$> List.find (fun f => String.eqb (fst f) "default") fields
  | _ => None
  end.

Definition isLog (ev : Event) : bool :=
  match ev with EvConsoleLog _ => true | _ => false end.

(** The error a call ended with, when it threw. *)
Definition thrownBy (ev : Event) : option Error :=
  match ev with
  | EvImport _ (Thrown e)
  | EvGetEtherscanEndpoint _ (Thrown e)
  | EvRetrieveContractBytecode _ _ (Thrown e)
  | EvInferSolcVersion _ (Thrown e)
  | EvCompile _ (Thrown e)
  | EvLookupMatchingBytecode _ _ _ (Thrown e)
  | EvNewInterface _ (Thrown e)
  | EvEncodeDeploy _ _ (Thrown e)
  | EvGetLongVersion _ (Thrown e) => Some e
  | _ => None
  end.

(** The calls [verify] makes inside a [try] block (lines 74-89, 100-112 and
    171-190). *)
Definition insideTry (ev : Event) : bool :=
  match ev with
  | EvImport _ _ | EvGetEtherscanEndpoint _ _ | EvEncodeDeploy _ _ _ => true
  | _ => false
  end.

(** The calls that reach outside the process: module loading, the node, the
    compiler. *)
Definition isExternal (ev : Event) : bool :=
  match ev with
  | EvImport _ _ | EvGetEtherscanEndpoint _ _
  | EvRetrieveContractBytecode _ _ _ | EvCompile _ _ => true
  | _ => false
  end.

(** * Properties of [verify] *)

Import Example.

(** ** Runs form a monad *)

Section Laws.
Context {A B C : Type}.

Lemma bind_ret_l (a : A) (f : A -> Run B) : mret a ≫= f = f a.
Proof. unfold mbind, Run_bind, mret, Run_ret. by destruct (f a). Qed.

Lemma bind_ret_r (m : Run A) : m ≫= mret = m.
Proof.
  destruct m as [t [a|e]]; unfold mbind, Run_bind, mret, Run_ret; [|done].
  by rewrite app_nil_r.
Qed.

Lemma bind_assoc (m : Run A) (f : A -> Run B) (g : B -> Run C) :
  (m ≫= f) ≫= g = m ≫= (fun a => f a ≫= g).
Proof.
  destruct m as [t [a|e]]; unfold mbind, Run_bind; [|done].
  destruct (f a) as [t' [b|e]]; [|done].
  destruct (g b) as [t'' o]. by rewrite app_assoc.
Qed.

(** An exception skips the rest of the block. *)
Lemma bind_throw (e : Error) (f : A -> Run B) : throw e ≫= f = throw e.
Proof. done. Qed.
End Laws.

(** ** Rules for runs *)

Section Rules.
Context {A B : Type}.

Lemma wp_run (P : Run A -> Prop) (m : Run A) :
  wp m (fun t o => P (mkRun t o)) -> P m.
Proof. destruct m; exact id. Qed.

Lemma wp_leaf (t : list Event) (o : Outcome A)
  (Q : list Event -> Outcome A -> Prop) :
  Q t o -> wp (mkRun t o) Q.
Proof. exact id. Qed.

Lemma wp_bind (m : Run A) (f : A -> Run B)
  (Q : list Event -> Outcome B -> Prop) :
  wp m (fun t o =>
          match o with
          | Returned a => wp (f a) (fun t' o' => Q (t ++ t') o')
          | Thrown e => Q t (Thrown e)
          end) ->
  wp (m ≫= f) Q.
Proof.
  destruct m as [t [a|e]]; unfold wp, mbind, Run_bind; simpl; [|done].
  by destruct (f a).
Qed.

Lemma wp_tryCatch (m : Run A) (h : Error -> Run A)
  (Q : list Event -> Outcome A -> Prop) :
  wp m (fun t o =>
          match o with
          | Returned a => Q t (Returned a)
          | Thrown e => wp (h e) (fun t' o' => Q (t ++ t') o')
          end) ->
  wp (tryCatch m h) Q.
Proof.
  destruct m as [t [a|e]]; unfold wp, tryCatch; simpl; [done|].
  by destruct (h e).
Qed.
End Rules.

(** One statement of the function under [wp]; a call whose result decides
    the path is split into its cases. *)
Ltac wp_step :=
  lazymatch goal with
  | |- wp (mbind _ _) _ => apply wp_bind
  | |- wp (tryCatch _ _) _ => apply wp_tryCatch
  | |- wp (call _ _) _ => unfold call at 1; apply wp_leaf
  | |- wp (perform _) _ => unfold perform at 1; apply wp_leaf
  | |- wp (mret _) _ => unfold mret at 1, Run_ret at 1; apply wp_leaf
  | |- wp (throw _) _ => unfold throw at 1; apply wp_leaf
  | |- wp (throwIf (negb ?b) _) _ =>
      unfold throwIf at 1; destruct b eqn:?; cbn [negb]
  | |- wp (throwIf ?b _) _ => unfold throwIf at 1; destruct b eqn:?
  | |- wp (await _ ?o) _ => unfold await at 1; apply wp_leaf; destruct o eqn:?
  | |- wp (match ?x with _ => _ end) _ => destruct x eqn:?
  end; cbv beta iota.

(** Turn a goal about [verify c args env] into one about its paths. *)
Ltac wp_start :=
  lazymatch goal with
  | |- context [verify ?c ?a ?e] =>
      pattern (verify c a e); apply wp_run; unfold verify; cbv beta zeta
  end.

Ltac wp_paths := wp_start; repeat (wp_step; simplify_eq; try done).

Lemma append_assoc (a b c : string) : (a +:+ b) +:+ c = a +:+ b +:+ c.
Proof.
  induction a as [|x a IH]; [done|].
  change (String x ((a +:+ b) +:+ c) = String x (a +:+ b +:+ c)).
  by rewrite IH.
Qed.

(** ** Early rejection on the version range *)

(** C1.  Whatever bytecode the node returns and whatever version is
    configured: when [isIncluded] answers [false] for the range inferred from
    that bytecode and the configured version, [verify] throws, and the run
    contains neither a call of [compile] nor one of [lookupMatchingBytecode]. *)
Theorem version_out_of_range_short_circuits
  (c : Collaborators) (args : VerificationArgs)
  (env : BuidlerRuntimeEnvironment) (deployed : Bytecode)
  (range : VersionRange) :
  retrieveContractBytecode c (address args) (provider (network env))
    = Returned (Some deployed) ->
  inferSolcVersion c deployed = Returned range ->
  isIncluded c range (getVersionNumber c (version (solc (config env))))
    = false ->
  isThrown (outcome (verify c args env)) = true
  /\ attempted isCompilation (verify c args env) = false
  /\ attempted isMatching (verify c args env) = false.
Proof.
  intros Hcode Hrange Hout.
  wp_paths; by simpl.
Qed.

Lemma version_out_of_range_short_circuits_witness :
  let c := collaborators (SolcVersions.exact v_0_5_0) [token; other]
             (Some runtime) (Returned (JsArray [])) in
  let env := environment (Some "KEY") "0.4.11" in
  isIncluded c (SolcVersions.exact v_0_5_0)
    (getVersionNumber c (version (solc (config env)))) = false
  /\ isThrown (outcome (verify c (arguments None) env)) = true
  /\ attempted isCompilation (verify c (arguments None) env) = false
  /\ attempted isMatching (verify c (arguments None) env) = false.
Proof.
  intros c env. split; [reflexivity|].
  apply (version_out_of_range_short_circuits c (arguments None) env runtime
           (SolcVersions.exact v_0_5_0)); reflexivity.
Defined.

(** Read a hypothesis [In ev trace] on the explicit trace of one path. *)
Ltac which_call :=
  cbn [In app trace outcome] in *; intros;
  repeat match goal with
         | H : _ \/ _ |- _ => destruct H
         | H : False |- _ => destruct H
         | H : @eq Event _ _ |- _ => first [discriminate H | injection H as ?]
         end;
  simplify_eq.

(** ** Absent bytecode *)

Lemma noBytecodeMessage_mentions (address networkName : string) :
  mentions (noBytecodeMessage address networkName) address
  /\ mentions (noBytecodeMessage address networkName) networkName.
Proof.
  unfold mentions, noBytecodeMessage. split.
  - by exists "The address ", (" has no bytecode. Is the contract deployed to this network?"
       +:+ LF +:+ "The selected network is " +:+ networkName +:+ ".").
  - exists ("The address " +:+ address +:+
       " has no bytecode. Is the contract deployed to this network?" +:+ LF +:+
       "The selected network is "), ".".
    by rewrite !append_assoc.
Qed.

(** C6.  When the account-code query of the run answers [null] for the given
    address, [verify] throws the plugin error whose message names the address
    and the selected network, and the run contains neither a call of
    [inferSolcVersion] nor one of [lookupMatchingBytecode]. *)
Theorem absent_bytecode_rejected
  (c : Collaborators) (args : VerificationArgs)
  (env : BuidlerRuntimeEnvironment) :
  In (EvRetrieveContractBytecode (address args) (provider (network env))
        (Returned None))
     (trace (verify c args env)) ->
  outcome (verify c args env)
    = Thrown (BuidlerPluginError (pluginName c)
                (noBytecodeMessage (address args) (name (network env))) None)
  /\ mentions (noBytecodeMessage (address args) (name (network env)))
              (address args)
  /\ mentions (noBytecodeMessage (address args) (name (network env)))
              (name (network env))
  /\ attempted isInference (verify c args env) = false
  /\ attempted isMatching (verify c args env) = false.
Proof.
  pose proof (noBytecodeMessage_mentions (address args) (name (network env)))
    as [Haddress Hnetwork].
  wp_paths; which_call; by cbn.
Qed.

Lemma absent_bytecode_rejected_witness :
  let c := collaborators (SolcVersions.exact v_0_5_0) [token; other]
             None (Returned (JsArray [])) in
  let env := environment (Some "KEY") "0.5.0" in
  outcome (verify c (arguments None) env)
    = Thrown (BuidlerPluginError "@nomiclabs/buidler-etherscan"
                (noBytecodeMessage deployedAt "ropsten") None).
Proof.
  intros c env.
  apply (absent_bytecode_rejected c (arguments None) env).
  vm_compute. tauto.
Defined.

(** ** The version mismatch error *)





(** ** Library links in the compiler input *)



(** ** Compilers older than 0.4.11 *)

Lemma unsupportedByEtherscan_spec (v : SolcVersion) :
  unsupportedByEtherscan v = true <->
  major v = 0%N /\ ((minor v < 4)%N \/ (minor v = 4%N /\ (patch v < 11)%N)).
Proof.
  unfold unsupportedByEtherscan.
  rewrite orb_true_iff, !andb_true_iff, !N.eqb_eq, !N.ltb_lt. tauto.
Qed.

(** The claim C9 as it is written fails when an earlier check of [verify]
    fires: without an API key the error is the one asking for the key. *)
Lemma old_compiler_counterexample :
  let c := collaborators (SolcVersions.exact v_0_5_0) [token; other]
             (Some runtime) (Returned (JsArray [])) in
  let env := environment None "0.4.10" in
  let v := getVersionNumber c (version (solc (config env))) in
  (major v = 0%N /\ ((minor v < 4)%N \/ (minor v = 4%N /\ (patch v < 11)%N)))
  /\ outcome (verify c (arguments None) env)
     = Thrown (BuidlerPluginError (pluginName c) apiKeyMessage None)
  /\ outcome (verify c (arguments None) env)
     <> Thrown (BuidlerPluginError (pluginName c) unsupportedVersionMessage
                  None).
Proof.
  intros c env v. split; [|split].
  - vm_compute. split; [done|]. right. done.
  - reflexivity.
  - vm_compute. discriminate.
Qed.

(** What every run with a configured version below 0.4.11 looks like. *)
Lemma unsupported_version_run
  (c : Collaborators) (args : VerificationArgs)
  (env : BuidlerRuntimeEnvironment) :
  unsupportedByEtherscan (getVersionNumber c (version (solc (config env))))
    = true ->
  isThrown (outcome (verify c args env)) = true
  /\ attempted isRetrieval (verify c args env) = false
  /\ attempted isInference (verify c args env) = false
  /\ attempted isRangeCheck (verify c args env) = false
  /\ attempted isMatching (verify c args env) = false
  /\ (apiKeyMissing (getDefaultEtherscanConfig c (config env)) = false ->
      name (network env) <> "buidlerevm" ->
      isAddress c (address args) = true ->
      outcome (verify c args env)
      = Thrown (BuidlerPluginError (pluginName c) unsupportedVersionMessage
                  None)).
Proof.
  intros Hold.
  wp_paths; cbn; repeat split; try done.
  all: intros; simplify_eq.
  all: match goal with
       | H : (_ =? _)%string = true |- _ => apply String.eqb_eq in H; done
       end.
Qed.

(** C9 (amended).  For a configured version with major 0 and either minor
    below 4, or minor 4 and patch below 11: [verify] throws, and the run
    contains no account-code query, no version inference and no lookup; when
    the API key is present, the network is not [buidlerevm] and the address is
    valid, the error thrown is the plugin error "Etherscan only supports
    compiler versions 0.4.11 and higher". *)
Theorem old_compiler_rejected
  (c : Collaborators) (args : VerificationArgs)
  (env : BuidlerRuntimeEnvironment) :
  let v := getVersionNumber c (version (solc (config env))) in
  major v = 0%N ->
  (minor v < 4)%N \/ (minor v = 4%N /\ (patch v < 11)%N) ->
  isThrown (outcome (verify c args env)) = true
  /\ attempted isRetrieval (verify c args env) = false
  /\ attempted isInference (verify c args env) = false
  /\ attempted isMatching (verify c args env) = false
  /\ (apiKeyMissing (getDefaultEtherscanConfig c (config env)) = false ->
      name (network env) <> "buidlerevm" ->
      isAddress c (address args) = true ->
      outcome (verify c args env)
      = Thrown (BuidlerPluginError (pluginName c) unsupportedVersionMessage
                  None)).
Proof.
  intros v Hmajor Hminor.
  destruct (unsupported_version_run c args env) as (? & ? & ? & ? & ? & ?);
    [by apply unsupportedByEtherscan_spec | done].
Qed.

Lemma old_compiler_rejected_witness :
  let c := collaborators (SolcVersions.exact v_0_5_0) [token; other]
             (Some runtime) (Returned (JsArray [])) in
  let env := environment (Some "KEY") "0.4.10" in
  outcome (verify c (arguments None) env)
  = Thrown (BuidlerPluginError (pluginName c) unsupportedVersionMessage None).
Proof.
  intros c env.
  apply (old_compiler_rejected c (arguments None) env);
    [reflexivity | right; split; reflexivity | reflexivity | vm_compute; discriminate
    | reflexivity].
Defined.

(** ** Scenario 3: configured 0.4.10 against an exact 0.5.0 *)

(** The claim C3 as it is written fails: with 0.4.10 configured and a
    deployed bytecode yielding exactly 0.5.0, the error is not the version
    mismatch; the run stops at the check for compilers older than 0.4.11 and
    never asks for the range. *)
Lemma scenario3_counterexample :
  let c := collaborators (SolcVersions.exact v_0_5_0) [token; other]
             (Some runtime) (Returned (JsArray [])) in
  let env := environment (Some "KEY") "0.4.10" in
  getVersionNumber c (version (solc (config env))) = mkSolcVersion 0 4 10
  /\ inferSolcVersion c runtime = Returned (SolcVersions.exact v_0_5_0)
  /\ outcome (verify c (arguments None) env)
     = Thrown (BuidlerPluginError (pluginName c) unsupportedVersionMessage
                 None)
  /\ outcome (verify c (arguments None) env)
     <> Thrown (BuidlerPluginError (pluginName c)
                  (versionMismatchMessage "0.4.10"
                     (detailedContext c (SolcVersions.exact v_0_5_0))
                     "ropsten") None)
  /\ attempted isRangeCheck (verify c (arguments None) env) = false.
Proof.
  intros c env. repeat split; try reflexivity.
  vm_compute. discriminate.
Qed.

(** C3 (amended).  With the compiler version 0.4.10 configured, whatever the
    deployed bytecode yields: [verify] throws, and the run contains no
    account-code query, no version inference, no range check and no lookup;
    when the API key is present, the network is not [buidlerevm] and the
    address is valid, the error is the plugin error "Etherscan only supports
    compiler versions 0.4.11 and higher". *)
Theorem scenario3_rejected_as_unsupported
  (c : Collaborators) (args : VerificationArgs)
  (env : BuidlerRuntimeEnvironment) :
  getVersionNumber c (version (solc (config env))) = mkSolcVersion 0 4 10 ->
  isThrown (outcome (verify c args env)) = true
  /\ attempted isRetrieval (verify c args env) = false
  /\ attempted isInference (verify c args env) = false
  /\ attempted isRangeCheck (verify c args env) = false
  /\ attempted isMatching (verify c args env) = false
  /\ (apiKeyMissing (getDefaultEtherscanConfig c (config env)) = false ->
      name (network env) <> "buidlerevm" ->
      isAddress c (address args) = true ->
      outcome (verify c args env)
      = Thrown (BuidlerPluginError (pluginName c) unsupportedVersionMessage
                  None)).
Proof.
  intros Hconfigured.
  apply unsupported_version_run. by rewrite Hconfigured.
Qed.

Lemma scenario3_rejected_as_unsupported_witness :
  let c := collaborators (SolcVersions.exact v_0_5_0) [token; other]
             (Some runtime) (Returned (JsArray [])) in
  let env := environment (Some "KEY") "0.4.10" in
  attempted isMatching (verify c (arguments None) env) = false.
Proof.
  intros c env.
  apply (scenario3_rejected_as_unsupported c (arguments None) env).
  reflexivity.
Defined.

(** With 0.4.11 configured the same bytecode does reach the range check and
    gets the version mismatch error naming the expected version. *)
Example scenario3_with_0_4_11 :
  let c := collaborators (SolcVersions.exact v_0_5_0) [token; other]
             (Some runtime) (Returned (JsArray [])) in
  let env := environment (Some "KEY") "0.4.11" in
  outcome (verify c (arguments None) env)
  = Thrown (BuidlerPluginError (pluginName c)
              (versionMismatchMessage "0.4.11" "The expected version is 0.5.0."
                 "ropsten") None)
  /\ attempted isMatching (verify c (arguments None) env) = false.
Proof. by vm_compute. Qed.

(** ** The constructor arguments module *)

(** With a module path the positional list plays no part in the run. *)
Lemma positional_list_ignored
  (c : Collaborators) (args : VerificationArgs)
  (env : BuidlerRuntimeEnvironment) (path : string)
  (positional : list string) :
  constructorArgs args = Some path ->
  verify c {| address := address args;
              constructorArguments := positional;
              constructorArgs := Some path |} env
  = verify c args env.
Proof.
  intros Hmodule. destruct args as [a l m]; simpl in Hmodule. by subst m.
Qed.

(** How a run with a module path ends once the import was made: a failed
    import and a settled value that is not an array both give the "Importing
    the module ... failed" error, the second with the "doesn't export a list"
    error as parent; and the encoder is called only with a settled value that
    is itself an array. *)
Lemma import_result_decides
  (c : Collaborators) (args : VerificationArgs)
  (env : BuidlerRuntimeEnvironment) (path : string) (r : Outcome JsValue) :
  In (EvImport path r) (trace (verify c args env)) ->
  r = importModule c path
  /\ constructorArgs args = Some path
  /\ match r with
     | Thrown e =>
         outcome (verify c args env)
         = Thrown (BuidlerPluginError (pluginName c) importFailedMessage
                     (Some e))
         /\ attempted isEncoding (verify c args env) = false
     | Returned v =>
         if isArray v
         then forall abi a o,
                In (EvEncodeDeploy abi a o) (trace (verify c args env)) ->
                a = v
         else outcome (verify c args env)
              = Thrown (BuidlerPluginError (pluginName c) importFailedMessage
                          (Some (BuidlerPluginError (pluginName c)
                                   notAListMessage None)))
              /\ attempted isEncoding (verify c args env) = false
     end.
Proof.
  wp_paths; which_call;
    repeat match goal with
           | H : isArray _ = _ |- _ => rewrite H
           end;
    repeat split; try done.
  all: intros; which_call; done.
Qed.

(** C10 (the code departs from it).  The value [verify] tests with
    [Array.isArray] is what [await import(path)] settles as, and for a module
    that is a namespace object holding the module's export under [default],
    never the export itself.  So whatever the module exports, a list
    included: [verify] throws and never calls the ABI encoder, the export is
    not used, and once the earlier checks pass the error is the "Importing
    the module ... failed" error with the "doesn't export a list" error as
    parent. *)
Theorem module_export_never_used
  (c : Collaborators) (args : VerificationArgs)
  (env : BuidlerRuntimeEnvironment) (path : string) (ns exported : JsValue) :
  constructorArgs args = Some path ->
  importModule c path = Returned ns ->
  namespaceDefault ns = Some exported ->
  isThrown (outcome (verify c args env)) = true
  /\ attempted isEncoding (verify c args env) = false
  /\ (apiKeyMissing (getDefaultEtherscanConfig c (config env)) = false ->
      name (network env) <> "buidlerevm" ->
      isAddress c (address args) = true ->
      unsupportedByEtherscan
        (getVersionNumber c (version (solc (config env)))) = false ->
      outcome (verify c args env)
      = Thrown (BuidlerPluginError (pluginName c) importFailedMessage
                  (Some (BuidlerPluginError (pluginName c) notAListMessage
                           None)))).
Proof.
  intros Hmodule Himport Hdefault.
  assert (isArray ns = false) as Hobject by (by destruct ns).
  clear Hdefault.
  wp_paths; cbn; repeat split; try done.
  all: intros; simplify_eq.
  all: match goal with
       | H : (_ =? _)%string = true |- _ => apply String.eqb_eq in H; done
       end.
Qed.

Lemma module_export_never_used_witness :
  let ns := JsObject [("0", JsString "1000");
                      ("default", JsArray [JsString "1000"])] in
  let c := collaborators (SolcVersions.exact v_0_5_0) [token; other]
             (Some runtime) (Returned ns) in
  let env := environment (Some "KEY") "0.5.0" in
  isArray (JsArray [JsString "1000"]) = true
  /\ outcome (verify c (arguments (Some "./arguments.js")) env)
     = Thrown (BuidlerPluginError (pluginName c) importFailedMessage
                 (Some (BuidlerPluginError (pluginName c) notAListMessage
                          None)))
  /\ attempted isEncoding (verify c (arguments (Some "./arguments.js")) env)
     = false.
Proof.
  intros ns c env. split; [reflexivity|].
  destruct (module_export_never_used c (arguments (Some "./arguments.js")) env
              "./arguments.js" ns (JsArray [JsString "1000"])
              eq_refl eq_refl eq_refl)
    as (_ & Hencoder & Herror).
  split; [|exact Hencoder].
  apply Herror; [reflexivity | vm_compute; discriminate | reflexivity
                | reflexivity].
Defined.

(** ** Submission *)

Lemma verify_never_submits
  (c : Collaborators) (args : VerificationArgs)
  (env : BuidlerRuntimeEnvironment) :
  attempted isSubmission (verify c args env) = false
  /\ attempted isStatusPolling (verify c args env) = false.
Proof. wp_paths; by cbn. Qed.

(** X16.  The request, when one is built, is built from this run's
    compilation and match: the contract is the one the lookup found among the
    contracts of [compile] for the retrieved bytecode, and the request holds
    the API key of the configuration, the address, the serialization of the
    compiled input with the match's library links, the name of the matching
    contract, the long version of the configured compiler and the encoding of
    the constructor arguments for the contract's ABI. *)
Lemma request_built_from_match
  (c : Collaborators) (args : VerificationArgs)
  (env : BuidlerRuntimeEnvironment) (params : RequestParams)
  (request : EtherscanVerifyRequest) :
  In (EvToRequest params request) (trace (verify c args env)) ->
  exists compiled deployed range info a encoded longVersion,
    retrieveContractBytecode c (address args) (provider (network env))
    = Returned (Some deployed)
    /\ inferSolcVersion c deployed = Returned range
    /\ compile c (run env) = Returned compiled
    /\ lookupMatchingBytecode c (contracts (compilerOutput compiled)) deployed
         (inferralType range) = Returned (Some info)
    /\ match constructorArgs args with
       | Some path => importModule c path = Returned a
       | None => a = JsArray (JsString <$> constructorArguments args)
       end
    /\ encodeDeploy c (abi (contract info)) a = Returned encoded
    /\ getLongVersion c (getVersionNumber c (version (solc (config env))))
       = Returned longVersion
    /\ params
       = {| req_apiKey := apiKey (getDefaultEtherscanConfig c (config env));
            req_contractAddress := address args;
            req_sourceCode :=
              stringify c (setLibraries (compilerInput compiled)
                             (libraryLinks info));
            req_contractName := contractName info;
            req_compilerVersion := longVersion;
            req_constructorArguments := encoded |}
    /\ request = toRequest c params.
Proof.
  wp_paths; which_call.
  all: do 7 eexists; repeat split; eauto.
Qed.

(** C2 (the code departs from it).  No run of [verify] calls
    [verifyContract]; and in the run below, where the lookup finds the
    contract and the constructor arguments are encoded, the request is built
    and both success messages are printed without any submission. *)
Theorem success_reported_without_submission :
  (forall c args env, attempted isSubmission (verify c args env) = false)
  /\ let c := collaborators (SolcVersions.exact v_0_5_0)
                [token; other] (Some runtime) (Returned (JsArray [])) in
     let r := verify c (arguments None) (environment (Some "KEY") "0.5.0") in
     let info := {| contract := token;
                    contractName := "Token";
                    contractFilename := "contracts/Token.sol";
                    libraryLinks := ∅ |} in
     let params := {| req_apiKey := Some "KEY";
                      req_contractAddress := deployedAt;
                      req_sourceCode := stringify c input;
                      req_contractName := "Token";
                      req_compilerVersion := "v0.5.0+commit.1d4f565a";
                      req_constructorArguments := "" |} in
     outcome r = Returned tt
     /\ In (EvLookupMatchingBytecode [token; other] runtime EXACT
              (Returned (Some info))) (trace r)
     /\ In (EvEncodeDeploy "[]" (JsArray [JsString "1000"]) (Returned ""))
           (trace r)
     /\ In (EvToRequest params (toRequest c params)) (trace r)
     /\ In (EvConsoleLog (submittedMessage deployedAt)) (trace r)
     /\ In (EvConsoleLog verifiedMessage) (trace r)
     /\ attempted isSubmission r = false.
Proof.
  split; [intros; apply verify_never_submits|].
  vm_compute. tauto.
Qed.

(** ** The lookup *)

(** The result of the lookup decides how the run ends: no result is the
    "not found" error, an exception of the matcher is the exception of
    [verify]. *)
Lemma lookup_result_decides
  (c : Collaborators) (args : VerificationArgs)
  (env : BuidlerRuntimeEnvironment) (cs : list CompiledArtifact)
  (deployed : Bytecode) (t : InferralType)
  (r : Outcome (option ContractInformation)) :
  In (EvLookupMatchingBytecode cs deployed t r) (trace (verify c args env)) ->
  r = lookupMatchingBytecode c cs deployed t
  /\ (r = Returned None ->
      outcome (verify c args env)
      = Thrown (BuidlerPluginError (pluginName c)
                  (notFoundMessage (name (network env))) None))
  /\ (forall e, r = Thrown e -> outcome (verify c args env) = Thrown e).
Proof.
  wp_paths; which_call; repeat split; intros; by simplify_eq.
Qed.

Section MatcherFacts.
Variable metadataLength : Bytecode -> option nat.
Variable t : InferralType.
Variable deployed : Bytecode.

Let matching := Matcher.matchesDeployed metadataLength t deployed.

Lemma zeroSpan_length (offset len : nat) (b : Bytecode) :
  length (Matcher.zeroSpan offset len b) = length b.
Proof.
  revert offset. induction len as [|len IH]; intros offset; [done|].
  cbn [Matcher.zeroSpan]. rewrite length_insert. apply IH.
Qed.

Lemma zeroSpans_length (spans : list (nat * nat)) (b : Bytecode) :
  length (Matcher.zeroSpans spans b) = length b.
Proof.
  induction spans as [|span spans IH]; [done|].
  cbn [Matcher.zeroSpans foldr]. rewrite zeroSpan_length. apply IH.
Qed.

(** Normalization keeps the length, so the length filter of the matcher
    rejects no candidate whose normalized bytes are those of the deployed
    bytecode. *)
Lemma matchesDeployed_normalizedEqual (a : CompiledArtifact) :
  matching a = true
  <-> Matcher.normalizedEqual metadataLength t deployed a.
Proof.
  unfold matching, Matcher.matchesDeployed, Matcher.normalizedEqual.
  rewrite andb_true_iff, Nat.eqb_eq, bool_decide_eq_true.
  split; [by intros [_ ?]|]. intros Hequal. split; [|done].
  apply (f_equal length) in Hequal. simpl in Hequal.
  by rewrite !zeroSpans_length in Hequal.
Qed.

Lemma filter_one (cs : list CompiledArtifact) (i : nat) (a : CompiledArtifact) :
  cs !! i = Some a -> matching a = true ->
  1 <= length (List.filter matching cs).
Proof.
  revert i. induction cs as [|x cs IH]; intros [|i] Hi Ha; simplify_eq/=.
  - rewrite Ha. simpl. lia.
  - destruct (matching x); simpl; [lia | eauto].
Qed.

Lemma filter_two (cs : list CompiledArtifact) (i j : nat)
  (a b : CompiledArtifact) :
  i <> j -> cs !! i = Some a -> cs !! j = Some b ->
  matching a = true -> matching b = true ->
  2 <= length (List.filter matching cs).
Proof.
  revert i j. induction cs as [|x cs IH]; intros [|i] [|j] Hij Hi Hj Ha Hb;
    simplify_eq/=.
  - rewrite Ha. simpl. pose proof (filter_one cs j b Hj Hb). lia.
  - rewrite Hb. simpl. pose proof (filter_one cs i a Hi Ha). lia.
  - assert (2 <= length (List.filter matching cs)) by (eapply (IH i j); eauto).
    destruct (matching x); simpl; lia.
Qed.

Lemma filter_none (cs : list CompiledArtifact) :
  (forall a, In a cs -> matching a = false) -> List.filter matching cs = [].
Proof.
  induction cs as [|x cs IH]; intros Hnone; simpl; [done|].
  rewrite (Hnone x) by (by left). apply IH. intros a Ha. apply Hnone.
  by right.
Qed.
End MatcherFacts.

(** C4.  When two different candidates of the compiler output have a
    normalized bytecode equal to the normalized deployed bytecode, the lookup
    throws [AmbiguousArtifactMatch] with the names of the matching
    candidates, in the order of the compiler output: every candidate whose
    normalized bytecode equals the deployed one is named, and no candidate is
    returned. *)
Theorem ambiguous_match_reported
  (metadataLength : Bytecode -> option nat) (cs : list CompiledArtifact)
  (deployed : Bytecode) (t : InferralType) (i j : nat)
  (a b : CompiledArtifact) :
  i <> j -> cs !! i = Some a -> cs !! j = Some b ->
  Matcher.normalizedEqual metadataLength t deployed a ->
  Matcher.normalizedEqual metadataLength t deployed b ->
  Matcher.lookupMatchingBytecode metadataLength cs deployed t
  = Thrown (AmbiguousArtifactMatch
              (artifactName <$>
                 List.filter (Matcher.matchesDeployed metadataLength t deployed)
                   cs))
  /\ (forall x, In x cs ->
        Matcher.normalizedEqual metadataLength t deployed x ->
        In (artifactName x)
           (artifactName <$>
              List.filter (Matcher.matchesDeployed metadataLength t deployed)
                cs)).
Proof.
  intros Hij Hi Hj Ha Hb.
  apply matchesDeployed_normalizedEqual in Ha, Hb.
  pose proof (filter_two metadataLength t deployed cs i j a b Hij Hi Hj Ha Hb)
    as Htwo.
  split.
  - unfold Matcher.lookupMatchingBytecode.
    destruct (List.filter _ cs) as [|x [|y l]]; simpl in Htwo; [lia | lia | done].
  - intros x Hx Hmatch. apply matchesDeployed_normalizedEqual in Hmatch.
    apply in_map, filter_In. done.
Qed.

Lemma ambiguous_match_reported_witness :
  Matcher.lookupMatchingBytecode (fun _ => None) [token; other; tokenCopy]
    runtime EXACT
  = Thrown (AmbiguousArtifactMatch ["Token"; "TokenCopy"]).
Proof.
  apply (ambiguous_match_reported (fun _ => None) [token; other; tokenCopy]
           runtime EXACT 0 2 token tokenCopy); [lia | reflexivity ..].
Defined.

(** In [verify] the error of the matcher is the error of the run. *)
Example ambiguous_match_in_verify :
  let c := collaborators (SolcVersions.exact v_0_5_0)
             [token; other; tokenCopy] (Some runtime) (Returned (JsArray [])) in
  outcome (verify c (arguments None) (environment (Some "KEY") "0.5.0"))
  = Thrown (AmbiguousArtifactMatch ["Token"; "TokenCopy"]).
Proof. reflexivity. Qed.

Lemma notFoundMessage_mentions (networkName : string) :
  mentions (notFoundMessage networkName) networkName
  /\ mentions (notFoundMessage networkName) "Wrong address for contract"
  /\ mentions (notFoundMessage networkName) "Wrong network selected".
Proof.
  unfold mentions, notFoundMessage. repeat split.
  - by eexists
      ("The contract was not found among the ones present in this project."
       +:+ LF +:+ "The selected network is "), _.
  - exists ("The contract was not found among the ones present in this project."
            +:+ LF +:+ "The selected network is " +:+ networkName +:+ "."
            +:+ LF +:+ "Possible causes:" +:+ LF +:+ "  - "),
      (LF +:+ "  - Wrong network selected or faulty buidler network config").
    by rewrite !append_assoc.
  - exists ("The contract was not found among the ones present in this project."
            +:+ LF +:+ "The selected network is " +:+ networkName +:+ "."
            +:+ LF +:+ "Possible causes:" +:+ LF +:+
            "  - Wrong address for contract" +:+ LF +:+ "  - "),
      " or faulty buidler network config".
    by rewrite !append_assoc.
Qed.

(** C5.  With the matcher of the spec as [lookupMatchingBytecode]: when the
    run looks the deployed bytecode up among candidates none of which has a
    normalized bytecode equal to the normalized deployed one, the lookup
    returns no result, and [verify] throws the plugin error whose message
    names the selected network and the two possible causes, a wrong address
    and a wrong network. *)
Theorem no_match_reported
  (metadataLength : Bytecode -> option nat)
  (c : Collaborators) (args : VerificationArgs)
  (env : BuidlerRuntimeEnvironment) (cs : list CompiledArtifact)
  (deployed : Bytecode) (t : InferralType)
  (r : Outcome (option ContractInformation)) :
  lookupMatchingBytecode c = Matcher.lookupMatchingBytecode metadataLength ->
  In (EvLookupMatchingBytecode cs deployed t r) (trace (verify c args env)) ->
  (forall a, In a cs ->
     ~ Matcher.normalizedEqual metadataLength t deployed a) ->
  r = Returned None
  /\ outcome (verify c args env)
     = Thrown (BuidlerPluginError (pluginName c)
                 (notFoundMessage (name (network env))) None)
  /\ mentions (notFoundMessage (name (network env))) (name (network env))
  /\ mentions (notFoundMessage (name (network env)))
              "Wrong address for contract"
  /\ mentions (notFoundMessage (name (network env))) "Wrong network selected".
Proof.
  intros Hmatcher Hcall Hnone.
  destruct (lookup_result_decides c args env cs deployed t r Hcall)
    as (Hr & Hnot_found & _).
  assert (r = Returned None) as ->.
  { rewrite Hr, Hmatcher. unfold Matcher.lookupMatchingBytecode.
    rewrite filter_none; [done|]. intros a Ha.
    apply not_true_is_false. intros Hmatch.
    by apply (Hnone a Ha), matchesDeployed_normalizedEqual. }
  split; [done|]. split; [by apply Hnot_found|].
  apply notFoundMessage_mentions.
Qed.

Lemma no_match_reported_witness :
  let c := collaborators (SolcVersions.exact v_0_5_0) [other]
             (Some runtime) (Returned (JsArray [])) in
  let env := environment (Some "KEY") "0.5.0" in
  outcome (verify c (arguments None) env)
  = Thrown (BuidlerPluginError (pluginName c) (notFoundMessage "ropsten") None).
Proof.
  intros c env.
  apply (no_match_reported (fun _ => None) c (arguments None) env [other]
           runtime EXACT (Returned None) eq_refl).
  - vm_compute. tauto.
  - intros a [<-|[]]. vm_compute. discriminate.
Defined.

(** * Further properties of [verify] *)

(** ** Blank API keys *)

Lemma rev_app_blank (s1 s2 : string) :
  isBlank (String.rev_app s1 s2) = isBlank s1 && isBlank s2.
Proof.
  revert s2. induction s1 as [|a s1 IH]; intros s2; [done|].
  cbn [String.rev_app isBlank]. rewrite IH. cbn [isBlank].
  destruct (isWhiteSpace a), (isBlank s1); done.
Qed.

Lemma rev_app_empty (s1 s2 : string) :
  String.rev_app s1 s2 = EmptyString -> s1 = EmptyString /\ s2 = EmptyString.
Proof.
  revert s2. induction s1 as [|a s1 IH]; intros s2; [done|].
  cbn [String.rev_app]. intros H. by destruct (IH _ H).
Qed.

Lemma trimStart_blank (s : string) :
  trimStart s = EmptyString <-> isBlank s = true.
Proof.
  induction s as [|a s IH]; [done|]. cbn [trimStart isBlank].
  destruct (isWhiteSpace a); [exact IH | done].
Qed.

Lemma trimStart_keeps_blank (s : string) :
  isBlank (trimStart s) = isBlank s.
Proof.
  induction s as [|a s IH]; [done|]. cbn [trimStart].
  destruct (isWhiteSpace a) eqn:Ha; [|done].
  cbn [isBlank]. by rewrite Ha.
Qed.

(** [trim] leaves nothing exactly when the string is empty or white space
    only. *)
Lemma trim_blank (s : string) :
  trim s = EmptyString <-> isBlank s = true.
Proof.
  unfold trim, trimEnd, String.rev. split.
  - intros H. apply rev_app_empty in H as [H _].
    apply trimStart_blank in H.
    rewrite rev_app_blank, trimStart_keeps_blank in H.
    by apply andb_true_iff in H as [H _].
  - intros H. apply trimStart_blank in H. by rewrite H.
Qed.

Lemma apiKeyMissing_spec (e : EtherscanConfig) :
  apiKeyMissing e = true
  <-> apiKey e = None \/ exists k, apiKey e = Some k /\ isBlank k = true.
Proof.
  unfold apiKeyMissing. destruct (apiKey e) as [k|].
  - rewrite String.eqb_eq, trim_blank. split.
    + intros Hblank. right. by exists k.
    + intros [Hnone | (k' & Hsome & Hblank)]; [done | by simplify_eq].
  - split; [by left | done].
Qed.

(** X1.  Without an API key, or with one made of white space only, [verify]
    throws the error asking for an API token, and the only call of the run is
    the one reading the Etherscan configuration: the address is not checked,
    no module is loaded, the node is not contacted. *)
Theorem blank_api_key_rejected
  (c : Collaborators) (args : VerificationArgs)
  (env : BuidlerRuntimeEnvironment) :
  (apiKey (getDefaultEtherscanConfig c (config env)) = None
   \/ exists k, apiKey (getDefaultEtherscanConfig c (config env)) = Some k
                /\ isBlank k = true) ->
  verify c args env
  = {| trace := [EvGetDefaultEtherscanConfig (config env)
                   (getDefaultEtherscanConfig c (config env))];
       outcome := Thrown (BuidlerPluginError (pluginName c) apiKeyMessage
                            None) |}.
Proof.
  intros Hkey. apply apiKeyMissing_spec in Hkey.
  wp_start. do 3 wp_step. wp_step; [|congruence]. by wp_step.
Qed.

Lemma blank_api_key_rejected_witness :
  outcome (verify (collaborators (SolcVersions.exact v_0_5_0) [token]
                     (Some runtime) (Returned (JsArray [])))
             (arguments None)
             (environment (Some (" " +:+ LF)) "0.5.0"))
  = Thrown (BuidlerPluginError "@nomiclabs/buidler-etherscan" apiKeyMessage
              None).
Proof.
  rewrite (blank_api_key_rejected
             (collaborators (SolcVersions.exact v_0_5_0) [token]
                (Some runtime) (Returned (JsArray [])))
             (arguments None) (environment (Some (" " +:+ LF)) "0.5.0"));
    [reflexivity|].
  right. exists (" " +:+ LF). split; reflexivity.
Defined.

(** ** The network and address checks *)

(** X2.  On the network named [buidlerevm] the run consists of the
    configuration read alone and [verify] throws; with an API key present the
    error is "Please select a network supported by Etherscan". *)
Theorem buidlerevm_rejected
  (c : Collaborators) (args : VerificationArgs)
  (env : BuidlerRuntimeEnvironment) :
  name (network env) = "buidlerevm" ->
  trace (verify c args env)
  = [EvGetDefaultEtherscanConfig (config env)
       (getDefaultEtherscanConfig c (config env))]
  /\ isThrown (outcome (verify c args env)) = true
  /\ (apiKeyMissing (getDefaultEtherscanConfig c (config env)) = false ->
      outcome (verify c args env)
      = Thrown (BuidlerPluginError (pluginName c) unsupportedNetworkMessage
                  None)).
Proof.
  intros Hname. apply String.eqb_eq in Hname. revert Hname.
  wp_paths; intros; by cbn.
Qed.

Lemma buidlerevm_rejected_witness :
  outcome (verify (collaborators (SolcVersions.exact v_0_5_0) [token]
                     (Some runtime) (Returned (JsArray [])))
             (arguments None)
             {| config := {| etherscan := {| apiKey := Some "KEY" |};
                             solc := {| version := "0.5.0" |} |};
                network := {| name := "buidlerevm";
                              provider := mkProvider "in-process" |};
                run := mkRunner "run" |})
  = Thrown (BuidlerPluginError "@nomiclabs/buidler-etherscan"
              unsupportedNetworkMessage None).
Proof.
  eapply (buidlerevm_rejected
            (collaborators (SolcVersions.exact v_0_5_0) [token]
               (Some runtime) (Returned (JsArray [])))
            (arguments None)); reflexivity.
Defined.

Lemma invalidAddressMessage_mentions (address : string) :
  mentions (invalidAddressMessage address) address.
Proof. by exists "", " is an invalid address.". Qed.

(** X3.  When [isAddress] rejects the address, [verify] throws without
    loading the arguments module, contacting the node or compiling; with an
    API key present and a network other than [buidlerevm] the error is the one
    naming the address as invalid. *)
Theorem invalid_address_rejected
  (c : Collaborators) (args : VerificationArgs)
  (env : BuidlerRuntimeEnvironment) :
  isAddress c (address args) = false ->
  isThrown (outcome (verify c args env)) = true
  /\ attempted isExternal (verify c args env) = false
  /\ mentions (invalidAddressMessage (address args)) (address args)
  /\ (apiKeyMissing (getDefaultEtherscanConfig c (config env)) = false ->
      name (network env) <> "buidlerevm" ->
      outcome (verify c args env)
      = Thrown (BuidlerPluginError (pluginName c)
                  (invalidAddressMessage (address args)) None)).
Proof.
  intros Hinvalid.
  pose proof (invalidAddressMessage_mentions (address args)) as Hmentions.
  wp_paths; cbn; repeat split; try done.
  all: intros; simplify_eq.
  all: match goal with
       | H : (_ =? _)%string = true |- _ => apply String.eqb_eq in H; done
       end.
Qed.

Lemma invalid_address_rejected_witness :
  outcome (verify (collaborators (SolcVersions.exact v_0_5_0) [token]
                     (Some runtime) (Returned (JsArray [])))
             {| address := "0x1234"; constructorArguments := [];
                constructorArgs := None |}
             (environment (Some "KEY") "0.5.0"))
  = Thrown (BuidlerPluginError "@nomiclabs/buidler-etherscan"
              (invalidAddressMessage "0x1234") None).
Proof.
  apply (invalid_address_rejected
           (collaborators (SolcVersions.exact v_0_5_0) [token]
              (Some runtime) (Returned (JsArray [])))
           {| address := "0x1234"; constructorArguments := [];
              constructorArgs := None |}
           (environment (Some "KEY") "0.5.0"));
    [reflexivity | reflexivity | vm_compute; discriminate].
Defined.

(** ** Errors of the collaborators *)

(** X4.  When probing the network for the Etherscan endpoint fails, the
    bytecode is not retrieved; a [NetworkProberError] is wrapped in a plugin
    error whose message is the prober's message followed by the selected
    network and whose parent is the prober's error, and any other error is
    thrown as it is. *)
Theorem endpoint_failure_reported
  (c : Collaborators) (args : VerificationArgs)
  (env : BuidlerRuntimeEnvironment) (e : Error) :
  In (EvGetEtherscanEndpoint (provider (network env)) (Thrown e))
     (trace (verify c args env)) ->
  outcome (verify c args env)
  = Thrown (match e with
            | NetworkProberError message =>
                BuidlerPluginError (pluginName c)
                  (message +:+ " The selected network is "
                   +:+ name (network env) +:+ ".") (Some e)
            | _ => e
            end)
  /\ attempted isRetrieval (verify c args env) = false.
Proof.
  wp_paths; which_call; by cbn.
Qed.

Lemma endpoint_failure_reported_witness :
  let c := {| pluginName := "@nomiclabs/buidler-etherscan";
              getDefaultEtherscanConfig := etherscan;
              isAddress := fun _ => true;
              getVersionNumber := parseVersion;
              getLongVersion := fun _ => Returned "";
              inferSolcVersion := fun _ =>
                Returned (SolcVersions.exact v_0_5_0);
              isIncluded := SolcVersions.isIncluded;
              rangeToString := fun _ => "";
              importModule := fun _ => Returned (JsArray []);
              getEtherscanEndpoint := fun _ =>
                Thrown (NetworkProberError "An etherscan endpoint could not be found for this network.");
              retrieveContractBytecode := fun _ _ => Returned None;
              compile := fun _ => Thrown (OtherError "");
              lookupMatchingBytecode := fun _ _ _ => Returned None;
              newInterface := fun _ => Returned tt;
              encodeDeploy := fun _ _ => Returned "";
              stringify := fun _ => "";
              toRequest := fun _ => mkRequest "" |} in
  outcome (verify c (arguments None) (environment (Some "KEY") "0.5.0"))
  = Thrown (BuidlerPluginError "@nomiclabs/buidler-etherscan"
              "An etherscan endpoint could not be found for this network. The selected network is ropsten."
              (Some (NetworkProberError "An etherscan endpoint could not be found for this network."))).
Proof.
  intros c.
  apply (endpoint_failure_reported c (arguments None)
           (environment (Some "KEY") "0.5.0")
           (NetworkProberError "An etherscan endpoint could not be found for this network.")).
  vm_compute. tauto.
Defined.

(** X5.  When the ABI encoder rejects the constructor arguments, nothing is
    serialized and no request is built.  A wrong number of arguments becomes
    a plugin error naming the contract's file and name and both counts; a
    value of the wrong type becomes a plugin error naming the value, the
    parameter and the encoder's reason; any other error is thrown as it is.
    The contract named is the one the lookup returned. *)
Theorem encoding_failure_reported
  (c : Collaborators) (args : VerificationArgs)
  (env : BuidlerRuntimeEnvironment) (abi : string) (a : JsValue) (e : Error) :
  In (EvEncodeDeploy abi a (Thrown e)) (trace (verify c args env)) ->
  exists cs deployed t info,
    In (EvLookupMatchingBytecode cs deployed t (Returned (Some info)))
       (trace (verify c args env))
    /\ outcome (verify c args env)
       = Thrown (match e with
                 | ABIArgumentLengthError types values =>
                     BuidlerPluginError (pluginName c)
                       (argumentLengthMessage (contractFilename info)
                          (contractName info) types values) None
                 | ABIArgumentTypeError value argument reason =>
                     BuidlerPluginError (pluginName c)
                       (argumentTypeMessage value argument reason) None
                 | _ => e
                 end)
    /\ attempted isRequestStep (verify c args env) = false.
Proof.
  wp_paths; which_call.
  all: do 4 eexists; cbn [In]; (split; [tauto|]); by cbn.
Qed.

Lemma encoding_failure_reported_witness :
  let c := {| pluginName := "@nomiclabs/buidler-etherscan";
              getDefaultEtherscanConfig := etherscan;
              isAddress := fun _ => true;
              getVersionNumber := parseVersion;
              getLongVersion := fun _ => Returned "";
              inferSolcVersion := fun _ =>
                Returned (SolcVersions.exact v_0_5_0);
              isIncluded := SolcVersions.isIncluded;
              rangeToString := fun _ => "";
              importModule := fun _ => Returned (JsArray []);
              getEtherscanEndpoint := fun _ => Returned (mkURL "");
              retrieveContractBytecode := fun _ _ => Returned (Some runtime);
              compile := fun _ =>
                Returned {| compilerInput := input;
                            compilerOutput := {| contracts := [token] |} |};
              lookupMatchingBytecode :=
                Matcher.lookupMatchingBytecode (fun _ => None);
              newInterface := fun _ => Returned tt;
              encodeDeploy := fun _ _ => Thrown (ABIArgumentLengthError 0 1);
              stringify := fun _ => "";
              toRequest := fun _ => mkRequest "" |} in
  exists info,
    outcome (verify c (arguments None) (environment (Some "KEY") "0.5.0"))
    = Thrown (BuidlerPluginError "@nomiclabs/buidler-etherscan"
                (argumentLengthMessage (contractFilename info)
                   (contractName info) 0 1) None).
Proof.
  intros c.
  destruct (encoding_failure_reported c (arguments None)
              (environment (Some "KEY") "0.5.0") "[]"
              (JsArray [JsString "1000"]) (ABIArgumentLengthError 0 1))
    as (cs & deployed & t & info & _ & Houtcome & _).
  - vm_compute. tauto.
  - by exists info.
Defined.

(** X6.  An exception of a call made outside the [try] blocks (the
    account-code query, the version inference, the compilation, the lookup,
    the [Interface] constructor, the long version) is the exception of
    [verify], unchanged: it is not wrapped in a plugin error. *)
Theorem unguarded_errors_propagate
  (c : Collaborators) (args : VerificationArgs)
  (env : BuidlerRuntimeEnvironment) (ev : Event) (e : Error) :
  In ev (trace (verify c args env)) ->
  thrownBy ev = Some e ->
  insideTry ev = false ->
  outcome (verify c args env) = Thrown e.
Proof.
  wp_paths; which_call; cbn [thrownBy insideTry] in *; by simplify_eq.
Qed.

Lemma unguarded_errors_propagate_witness :
  outcome (verify (collaborators (SolcVersions.exact v_0_5_0)
                     [token; tokenCopy] (Some runtime) (Returned (JsArray [])))
             (arguments None) (environment (Some "KEY") "0.5.0"))
  = Thrown (AmbiguousArtifactMatch ["Token"; "TokenCopy"]).
Proof.
  apply (unguarded_errors_propagate
           (collaborators (SolcVersions.exact v_0_5_0) [token; tokenCopy]
              (Some runtime) (Returned (JsArray [])))
           (arguments None) (environment (Some "KEY") "0.5.0")
           (EvLookupMatchingBytecode [token; tokenCopy] runtime EXACT
              (Thrown (AmbiguousArtifactMatch ["Token"; "TokenCopy"]))));
    [vm_compute; tauto | reflexivity | reflexivity].
Defined.

(** X7.  An error [verify] throws is either a plugin error of this plugin
    or the error some call of the run threw: the function raises nothing
    else. *)
Theorem error_provenance
  (c : Collaborators) (args : VerificationArgs)
  (env : BuidlerRuntimeEnvironment) (e : Error) :
  outcome (verify c args env) = Thrown e ->
  (exists message parent,
      e = BuidlerPluginError (pluginName c) message parent)
  \/ In (Some e) (thrownBy <$> trace (verify c args env)).
Proof.
  wp_paths; cbn; intros; simplify_eq; eauto 30.
Qed.

Lemma error_provenance_witness :
  let c := collaborators (SolcVersions.exact v_0_5_0) [token; tokenCopy]
             (Some runtime) (Returned (JsArray [])) in
  let r := verify c (arguments None) (environment (Some "KEY") "0.5.0") in
  In (Some (AmbiguousArtifactMatch ["Token"; "TokenCopy"]))
     (thrownBy <$> trace r).
Proof.
  intros c r.
  destruct (error_provenance c (arguments None)
              (environment (Some "KEY") "0.5.0")
              (AmbiguousArtifactMatch ["Token"; "TokenCopy"]) eq_refl)
    as [(message & parent & Hplugin) | Hcall]; [discriminate | exact Hcall].
Defined.

(** ** The successful run *)

(** X8.  Without an arguments module, [verify] returns exactly when every
    check passes and every call succeeds: the API key is present and not
    blank, the network is not [buidlerevm], the address is valid, the
    compiler is not older than 0.4.11, the endpoint is found, the address has
    bytecode, its version range includes the configured version, the project
    compiles, the lookup finds a contract, the [Interface] of its ABI is
    built, the positional arguments encode and the long version is known. *)
Theorem verify_returns_iff
  (c : Collaborators) (args : VerificationArgs)
  (env : BuidlerRuntimeEnvironment) :
  constructorArgs args = None ->
  outcome (verify c args env) = Returned tt
  <->
  apiKeyMissing (getDefaultEtherscanConfig c (config env)) = false
  /\ name (network env) <> "buidlerevm"
  /\ isAddress c (address args) = true
  /\ unsupportedByEtherscan (getVersionNumber c (version (solc (config env))))
     = false
  /\ (exists url, getEtherscanEndpoint c (provider (network env))
                  = Returned url)
  /\ exists deployed range compiled info encoded long,
       retrieveContractBytecode c (address args) (provider (network env))
       = Returned (Some deployed)
       /\ inferSolcVersion c deployed = Returned range
       /\ isIncluded c range
            (getVersionNumber c (version (solc (config env)))) = true
       /\ compile c (run env) = Returned compiled
       /\ lookupMatchingBytecode c (contracts (compilerOutput compiled))
            deployed (inferralType range) = Returned (Some info)
       /\ newInterface c (abi (contract info)) = Returned tt
       /\ encodeDeploy c (abi (contract info))
            (JsArray (JsString <$> constructorArguments args))
          = Returned encoded
       /\ getLongVersion c (getVersionNumber c (version (solc (config env))))
          = Returned long.
Proof.
  rewrite <- String.eqb_neq.
  wp_paths; intros; cbn [outcome].
  all: split;
    [ intros Hreturned; try discriminate Hreturned
    | intros (? & ? & ? & ? & [? ?]
              & (? & ? & ? & ? & ? & ?
                 & ? & ? & ? & ? & ? & ? & ? & ?)); destruct_and?;
      simplify_eq; try congruence ].
  all: match goal with u : unit |- _ => destruct u end.
  all: do 4 (split; [done|]).
  all: split; [by eexists|].
  all: do 6 eexists; repeat split; eassumption.
Qed.

Lemma verify_returns_iff_witness :
  outcome (verify (collaborators (SolcVersions.exact v_0_5_0) [token; other]
                     (Some runtime) (Thrown (OtherError "no module")))
             (arguments None) (environment (Some "KEY") "0.5.0"))
  = Returned tt.
Proof.
  apply (verify_returns_iff
           (collaborators (SolcVersions.exact v_0_5_0) [token; other]
              (Some runtime) (Thrown (OtherError "no module")))
           (arguments None) (environment (Some "KEY") "0.5.0") eq_refl).
  repeat split; try reflexivity.
  - vm_compute. discriminate.
  - by eexists.
  - exists runtime, (SolcVersions.exact v_0_5_0),
      {| compilerInput := input;
         compilerOutput := {| contracts := [token; other] |} |},
      {| contract := token; contractName := "Token";
         contractFilename := "contracts/Token.sol"; libraryLinks := ∅ |},
      "", "v0.5.0+commit.1d4f565a".
    repeat split; reflexivity.
Defined.

(** X9.  The lookup is always run on the bytecode retrieved for the given
    address, against the contracts this compilation produced, and with the
    inferral type of the range that was inferred from that bytecode and that
    includes the configured version. *)
Theorem lookup_arguments
  (c : Collaborators) (args : VerificationArgs)
  (env : BuidlerRuntimeEnvironment) (cs : list CompiledArtifact)
  (deployed : Bytecode) (t : InferralType)
  (r : Outcome (option ContractInformation)) :
  In (EvLookupMatchingBytecode cs deployed t r) (trace (verify c args env)) ->
  exists compiled range,
    retrieveContractBytecode c (address args) (provider (network env))
    = Returned (Some deployed)
    /\ inferSolcVersion c deployed = Returned range
    /\ t = inferralType range
    /\ isIncluded c range (getVersionNumber c (version (solc (config env))))
       = true
    /\ compile c (run env) = Returned compiled
    /\ cs = contracts (compilerOutput compiled).
Proof.
  wp_paths; which_call; do 2 eexists; repeat split; eauto.
Qed.

Lemma lookup_arguments_witness :
  let c := collaborators (SolcVersions.exact v_0_5_0) [token; other]
             (Some runtime) (Returned (JsArray [])) in
  exists compiled,
    compile c (mkRunner "run") = Returned compiled
    /\ [token; other] = contracts (compilerOutput compiled).
Proof.
  intros c.
  destruct (lookup_arguments c (arguments None)
              (environment (Some "KEY") "0.5.0") [token; other] runtime EXACT
              (Returned (Some {| contract := token; contractName := "Token";
                                 contractFilename := "contracts/Token.sol";
                                 libraryLinks := ∅ |})))
    as (compiled & range & _ & _ & _ & _ & Hcompile & Hcontracts).
  - vm_compute. tauto.
  - by exists compiled.
Defined.

(** X10.  The calls of a run follow the order of the function's text, each
    made at most once: the stages of the trace are strictly increasing. *)
Theorem calls_in_source_order
  (c : Collaborators) (args : VerificationArgs)
  (env : BuidlerRuntimeEnvironment) :
  StronglySorted lt (stage <$> trace (verify c args env)).
Proof.
  apply Sorted_StronglySorted; [intros x y z; lia|].
  wp_paths; vm_compute; repeat constructor.
Qed.

(** X11.  Without an arguments module no module is loaded, and the value
    handed to the ABI encoder is the array of the positional arguments. *)
Theorem positional_arguments_encoded
  (c : Collaborators) (args : VerificationArgs)
  (env : BuidlerRuntimeEnvironment) :
  constructorArgs args = None ->
  (forall path r, ~ In (EvImport path r) (trace (verify c args env)))
  /\ (forall abi a r,
        In (EvEncodeDeploy abi a r) (trace (verify c args env)) ->
        a = JsArray (JsString <$> constructorArguments args)).
Proof.
  wp_paths; intros; (split; [intros ? ? ? | intros ? ? ? ?]);
    which_call; done.
Qed.

Lemma positional_arguments_encoded_witness :
  let c := collaborators (SolcVersions.exact v_0_5_0) [token; other]
             (Some runtime) (Thrown (OtherError "no module")) in
  JsArray [JsString "1000"]
  = JsArray (JsString <$> constructorArguments (arguments None)).
Proof.
  intros c.
  apply (proj2 (positional_arguments_encoded c (arguments None)
                  (environment (Some "KEY") "0.5.0") eq_refl)
           "[]" (JsArray [JsString "1000"]) (Returned "")).
  vm_compute. tauto.
Defined.

Lemma apiKeyPresent (e : EtherscanConfig) :
  apiKeyMissing e = false ->
  exists k, apiKey e = Some k /\ isBlank k = false.
Proof.
  intros Hpresent. destruct (apiKey e) as [k|] eqn:Hkey.
  - exists k. split; [done|]. apply not_true_is_false. intros Hblank.
    assert (apiKeyMissing e = true) as Hmissing; [|congruence].
    apply apiKeyMissing_spec. right. by exists k.
  - assert (apiKeyMissing e = true) as Hmissing; [|congruence].
    apply apiKeyMissing_spec. by left.
Qed.

(** X12.  Every request built carries an API key that is present and not
    blank, and the address given to [verify], which [isAddress] accepted. *)
Theorem request_carries_checked_inputs
  (c : Collaborators) (args : VerificationArgs)
  (env : BuidlerRuntimeEnvironment) (params : RequestParams)
  (request : EtherscanVerifyRequest) :
  In (EvToRequest params request) (trace (verify c args env)) ->
  (exists k, req_apiKey params = Some k /\ isBlank k = false)
  /\ req_contractAddress params = address args
  /\ isAddress c (req_contractAddress params) = true.
Proof.
  pose proof (apiKeyPresent (getDefaultEtherscanConfig c (config env)))
    as Hkey.
  wp_paths; which_call; cbn; auto.
Qed.

Lemma request_carries_checked_inputs_witness :
  let c := collaborators (SolcVersions.exact v_0_5_0) [token; other]
             (Some runtime) (Returned (JsArray [])) in
  isAddress c deployedAt = true.
Proof.
  intros c.
  apply (request_carries_checked_inputs c (arguments None)
           (environment (Some "KEY") "0.5.0")
           {| req_apiKey := Some "KEY";
              req_contractAddress := deployedAt;
              req_sourceCode := stringify c input;
              req_contractName := "Token";
              req_compilerVersion := "v0.5.0+commit.1d4f565a";
              req_constructorArguments := "" |}
           (mkRequest "Solidity")).
  vm_compute. tauto.
Defined.

(** X13.  The lines printed by a run are the two success messages, in
    this order, when [verify] returns, and none when it throws. *)
Theorem success_messages_printed
  (c : Collaborators) (args : VerificationArgs)
  (env : BuidlerRuntimeEnvironment) :
  List.filter isLog (trace (verify c args env))
  = if isThrown (outcome (verify c args env))
    then []
    else [EvConsoleLog (submittedMessage (address args));
          EvConsoleLog verifiedMessage].
Proof.
  wp_paths; by cbn.
Qed.

(** ** What reaches the node and the serializer *)

(** X14.  The node is asked for code only for the address given to
    [verify], on the provider of the selected network, and only once the
    address was accepted by [isAddress], the network is not [buidlerevm], the
    configured compiler is not older than 0.4.11 and the Etherscan endpoint
    of the network was found. *)
Theorem retrieval_guarded
  (c : Collaborators) (args : VerificationArgs)
  (env : BuidlerRuntimeEnvironment) (a : string) (p : EthereumProvider)
  (r : Outcome (option Bytecode)) :
  In (EvRetrieveContractBytecode a p r) (trace (verify c args env)) ->
  a = address args
  /\ p = provider (network env)
  /\ isAddress c a = true
  /\ name (network env) <> "buidlerevm"
  /\ unsupportedByEtherscan (getVersionNumber c (version (solc (config env))))
     = false
  /\ exists url, getEtherscanEndpoint c p = Returned url.
Proof.
  rewrite <- String.eqb_neq.
  wp_paths; which_call; repeat split; eauto.
Qed.

Lemma retrieval_guarded_witness :
  let c := collaborators (SolcVersions.exact v_0_5_0) [token; other] None
             (Returned (JsArray [])) in
  exists url, getEtherscanEndpoint c (mkProvider "ropsten") = Returned url.
Proof.
  intros c.
  apply (retrieval_guarded c (arguments None)
           (environment (Some "KEY") "0.5.0") deployedAt (mkProvider "ropsten")
           (Returned None)).
  vm_compute. tauto.
Defined.

(** X15.  The compiler input that is serialized is the one the compilation
    returned with nothing but [settings.libraries] replaced: language,
    sources and the other settings are those of the compilation. *)
Theorem only_libraries_replaced
  (c : Collaborators) (args : VerificationArgs)
  (env : BuidlerRuntimeEnvironment) (ci : CompilerInput) (json : string) :
  In (EvStringify ci json) (trace (verify c args env)) ->
  exists compiled,
    compile c (run env) = Returned compiled
    /\ language ci = language (compilerInput compiled)
    /\ sources ci = sources (compilerInput compiled)
    /\ otherSettings (settings ci)
       = otherSettings (settings (compilerInput compiled))
    /\ json = stringify c ci.
Proof.
  wp_paths; which_call; eexists; repeat split; eauto.
Qed.

Lemma only_libraries_replaced_witness :
  let c := collaborators (SolcVersions.exact v_0_5_0) [token; other]
             (Some runtime) (Returned (JsArray [])) in
  exists compiled,
    compile c (mkRunner "run") = Returned compiled
    /\ sources input = sources (compilerInput compiled).
Proof.
  intros c.
  destruct (only_libraries_replaced c (arguments None)
              (environment (Some "KEY") "0.5.0") input "Solidity")
    as (compiled & Hcompile & _ & Hsources & _).
  - vm_compute. tauto.
  - by exists compiled.
Defined.

Lemma request_built_from_match_witness :
  let c := collaborators (SolcVersions.exact v_0_5_0) [token; other]
             (Some runtime) (Returned (JsArray [])) in
  let params := {| req_apiKey := Some "KEY";
                   req_contractAddress := deployedAt;
                   req_sourceCode := stringify c input;
                   req_contractName := "Token";
                   req_compilerVersion := "v0.5.0+commit.1d4f565a";
                   req_constructorArguments := "" |} in
  mkRequest "Solidity" = toRequest c params.
Proof.
  intros c params.
  destruct (request_built_from_match c (arguments None)
              (environment (Some "KEY") "0.5.0") params (mkRequest "Solidity"))
    as (? & ? & ? & ? & ? & ? & ? & _ & _ & _ & _ & _ & _ & _ & _ & Hrequest).
  - vm_compute. tauto.
  - exact Hrequest.
Defined.
